(** * ReAct.py: a command-line chat loop around an agent framework

    A shallow embedding of [ReAct.py].  The script reads four settings from
    the environment, declares two tool callbacks, builds the framework
    objects (prompt, LLM client, memory, agent, executor) and then runs a
    read / invoke / print loop.

    The framework, the Wikipedia client, the clock and the console are not
    part of the script: they appear here as parameters (the [World] record
    and the [Framework] class), and the general statements below hold for
    whatever they do. *)

From Stdlib Require Import String Ascii List ZArith Lia Bool.
From stdpp Require Import base option gmap strings.
Import ListNotations.
Local Open Scope string_scope.

(** ** Python values the script handles *)

(** The classes derived from [Exception].  [OtherException] stands for any
    further such class, named by its qualified name.
    ([wikipedia.exceptions.PageError] and [DisambiguationError] derive from
    [WikipediaException], which derives from [Exception].) *)
Inductive exc_class : Type :=
  | DisambiguationError
  | PageError
  | EOFError
  | KeyError
  | OtherException (qualname : string).

(** An instance of a class derived from [Exception] whose [__str__]
    returns: its class and the text [str(e)] gives. *)
Record exc : Type := Exc { exc_cls : exc_class; exc_str : string }.

(** The classes derived from [BaseException] and not from [Exception]: an
    [except Exception] clause does not catch their instances. *)
Inductive not_exception_class : Type :=
  | KeyboardInterrupt
  | SystemExit
  | CancelledError
  | OtherBaseException (qualname : string).

(** Anything a call can raise where a handler tells classes apart: an
    instance of a class derived from [Exception], with a [__str__] that
    returns ([OfException]) or that itself raises ([StrRaises]), or an
    instance of a class that is not derived from [Exception]. *)
Inductive raised : Type :=
  | OfException (e : exc)
  | StrRaises (cls : exc_class) (by_str : raised)
  | NotException (cls : not_exception_class) (text : string).
Coercion OfException : exc >-> raised.

(** What evaluating a Python expression ends in, for exceptions of type
    [E]. *)
Inductive outcome_of (E A : Type) : Type :=
  | Returned (a : A)
  | Raised (e : E).
Arguments Returned {E A} a.
Arguments Raised {E A} & e.

(** The module-level statements and the loop have no handler: whatever a
    call into the framework raises there is uncaught, and [exc] stands for
    it. *)
Notation outcome := (outcome_of exc).

(** Sequencing: an exception raised by a statement skips the statements
    after it. *)
#[export] Instance outcome_ret {E : Type} : MRet (outcome_of E) :=
  fun A a => Returned a.
#[export] Instance outcome_bind {E : Type} : MBind (outcome_of E) := fun A B f m =>
  match m with
  | Returned a => f a
  | Raised e => Raised e
  end.

(** The class of what was raised, when it derives from [Exception]. *)
Definition exception_class (x : raised) : option exc_class :=
  match x with
  | OfException e => Some (exc_cls e)
  | StrRaises cls _ => Some cls
  | NotException _ _ => None
  end.

(** [str(e)], which an f-string calls as well. *)
Definition str (x : raised) : outcome_of raised string :=
  match x with
  | OfException e => Returned (exc_str e)
  | StrRaises _ by_str => Raised by_str
  | NotException _ text => Returned text
  end.

(** ** Step 2 of the script: the tools *)

(** The seven fields of a naive [datetime] value, which are what
    [isoformat()] prints: a date and a time of day on the local clock,
    without an offset from UTC. *)
Record datetime : Type := Datetime {
  year : N; month : N; day : N;
  hour : N; minute : N; second : N; microsecond : N
}.

(** The ranges the [datetime] class maintains for its fields. *)
Definition valid_datetime (d : datetime) : Prop :=
  (1 <= year d <= 9999 /\ 1 <= month d <= 12 /\ 1 <= day d <= 31 /\
   hour d < 24 /\ minute d < 60 /\ second d < 60 /\ microsecond d < 1000000)%N.

Definition digit (n : N) : ascii := ascii_of_N (48 + n mod 10).

(** [digits w n]: the [w] low decimal digits of [n], most significant
    first.  For [n < 10 ^ w] this is what the format [%0wd] prints, and the
    fields of a [datetime] are within that range. *)
Fixpoint digits (w : nat) (n : N) : string :=
  match w with
  | O => EmptyString
  | S w' => digits w' (n / 10) ++ String (digit n) EmptyString
  end.

(** [datetime.isoformat()] with the default separator and [timespec]:
    [YYYY-MM-DDTHH:MM:SS], followed by [.ffffff] when the microsecond field
    is not zero. *)
Definition isoformat (d : datetime) : string :=
  digits 4 (year d) ++ "-" ++ digits 2 (month d) ++ "-" ++ digits 2 (day d)
  ++ "T" ++ digits 2 (hour d) ++ ":" ++ digits 2 (minute d) ++ ":"
  ++ digits 2 (second d)
  ++ (if N.eqb (microsecond d) 0 then "" else "." ++ digits 6 (microsecond d)).

(** ISO 8601, extended format, of a calendar date and time of day:
    [YYYY-MM-DDThh:mm:ss], optionally followed by a decimal fraction of the
    second, here of six digits.  [parse_iso8601] reads such a text and
    gives the date and time of day it denotes, or [None] when the text is
    not of this form. *)
Definition digit_value (c : ascii) : option N :=
  let n := N_of_ascii c in
  if (48 <=? n)%N && (n <=? 57)%N then Some (n - 48)%N else None.

(** Reads a number of exactly [w] digits from the front of [s]. *)
Fixpoint number (w : nat) (s : string) : option (N * string) :=
  match w with
  | O => Some (0%N, s)
  | S w' =>
      match number w' s with
      | Some (high, String c s') =>
          match digit_value c with
          | Some d => Some (10 * high + d, s')%N
          | None => None
          end
      | _ => None
      end
  end.

Definition expect (c : ascii) (s : string) : option string :=
  match s with
  | String c' s' => if Ascii.eqb c c' then Some s' else None
  | EmptyString => None
  end.

Definition fraction (s : string) : option (N * string) :=
  match s with
  | EmptyString => Some (0%N, EmptyString)
  | String c s' => if Ascii.eqb c "." then number 6 s' else None
  end.

Definition in_range (lo n hi : N) : bool := (lo <=? n)%N && (n <=? hi)%N.

Definition parse_iso8601 (s : string) : option datetime :=
  '(y, s) ← number 4 s; s ← expect "-" s;
  '(mo, s) ← number 2 s; s ← expect "-" s;
  '(d, s) ← number 2 s; s ← expect "T" s;
  '(h, s) ← number 2 s; s ← expect ":" s;
  '(mi, s) ← number 2 s; s ← expect ":" s;
  '(sec, s) ← number 2 s;
  '(us, s) ← fraction s;
  match s with
  | EmptyString =>
      if in_range 1 mo 12 && in_range 1 d 31 && in_range 0 h 23
         && in_range 0 mi 59 && in_range 0 sec 59
      then Some (Datetime y mo d h mi sec us)
      else None
  | String _ _ => None
  end.

(** What a tool callback can observe of the outside world when it runs.
    [datetime.now()] gives the local date and time of day, [datetime_now],
    and the [fold] attribute, [datetime_fold], which is 1 during the second
    pass through an hour that is repeated when the clocks are set back.
    [wikipedia_summary] is the answer of the Wikipedia client. *)
Record World : Type := {
  datetime_now : datetime;
  datetime_fold : bool;
  wikipedia_summary : string -> outcome_of raised string
}.

(** [def get_current_datetime( *args, **kwargs )]: the arguments are
    accepted and ignored.  [isoformat()] does not print [fold]. *)
Definition get_current_datetime (w : World)
    (args : list string) (kwargs : list (string * string))
    : outcome_of raised string :=
  Returned (isoformat (datetime_now w)).

(** [def get_wikipedia_summary(query)]: the [try] body and its three
    handlers, tried in the order they are written.  What is raised and is
    of none of the three classes leaves the function, and so does what
    [str(e)] raises inside a handler. *)
Definition get_wikipedia_summary (w : World) (query : string)
    : outcome_of raised string :=
  match wikipedia_summary w query with
  | Returned summary => Returned summary
  | Raised e =>
      match exception_class e with
      | Some DisambiguationError =>
          text ← str e; Returned ("Disambiguation error: " ++ text)
      | Some PageError => Returned "Page not found."
      | Some _ => str e
      | None => Raised e
      end
  end.

Record Tool : Type := {
  name : string;
  func : World -> string -> outcome_of raised string;
  description : string
}.

Definition tools : list Tool :=
  [ {| name := "Date Time";
       func := fun w input => get_current_datetime w [input] [];
       description := "Useful for checking the current date and time." |};
    {| name := "Wikipedia";
       func := get_wikipedia_summary;
       description := "Useful for getting Wikipedia summaries." |} ].

(** ** Step 1 of the script: the environment *)

(** [os.environ] is a dict from names to text.  [load_dotenv()] adds the
    entries of the [.env] file and leaves a variable that is already set as
    it is (its [override] defaults to [False]). *)
Definition load_dotenv (dotenv environ : gmap string string) : gmap string string :=
  environ ∪ dotenv.

(** [os.getenv(key)]: [None] when the variable is not set; it never raises. *)
Definition getenv (environ : gmap string string) (key : string) : option string :=
  environ !! key.

(** ** Steps 3 to 5: the framework objects *)

(** Values passed as keyword arguments. *)
Inductive value (Obj : Type) : Type :=
  | VNone
  | VBool (b : bool)
  | VInt (z : Z)
  | VStr (s : string)
  | VObj (o : Obj)
  | VTools (ts : list Tool).
Arguments VNone {Obj}.
Arguments VBool {Obj} b.
Arguments VInt {Obj} z.
Arguments VStr {Obj} s.
Arguments VObj {Obj} o.
Arguments VTools {Obj} ts.

(** The value of a variable that may hold [None] or a [str]. *)
Definition optional_str {Obj : Type} (o : option string) : value Obj :=
  match o with
  | Some s => VStr s
  | None => VNone
  end.

(** The calls the script makes into the agent framework.  [Obj] is the type
    of the objects the framework hands back (prompt, LLM client, memory,
    agent, executor).  A constructor receives its keyword arguments as a
    dict.  [ainvoke] may change the executor (its memory), so it returns the
    executor along with the outcome of the call. *)
Class Framework (Obj : Type) : Type := {
  hub_pull : string -> outcome Obj;
  AzureChatOpenAI : gmap string (value Obj) -> outcome Obj;
  ConversationSummaryBufferMemory : gmap string (value Obj) -> outcome Obj;
  create_react_agent : gmap string (value Obj) -> outcome Obj;
  AgentExecutor_from_agent_and_tools : gmap string (value Obj) -> outcome Obj;
  ainvoke : Obj -> gmap string string -> outcome (gmap string string) * Obj
}.

(** What the process does that can be seen from outside. *)
Inductive event : Type :=
  | Stdout (text : string)
  | Stdin (line : string)
  | AInvoke (input : gmap string string).

Definition nl : string := String (ascii_of_N 10) EmptyString.

(** [print( *args )] with the default [sep] and [end]. *)
Definition print (args : list string) : event :=
  Stdout (String.concat " " args ++ nl).

Definition lower_char (c : ascii) : ascii :=
  let n := N_of_ascii c in
  if (65 <=? n)%N && (n <=? 90)%N then ascii_of_N (n + 32) else c.

(** [str.lower()].  A text is held as the characters of a [string]: the
    capital letters [A] to [Z] go to [a] to [z] and every other character
    stays.  (Letters outside ASCII, which CPython lower-cases with the
    Unicode tables, are kept as they are here.) *)
Fixpoint lower (s : string) : string :=
  match s with
  | EmptyString => EmptyString
  | String c s' => String (lower_char c) (lower s')
  end.

(** Equality of two texts when the case of letters is ignored: the same
    length, and at each position the same character or the two forms,
    capital and small, of one letter. *)
Definition is_capital (c : ascii) : bool :=
  (65 <=? N_of_ascii c)%N && (N_of_ascii c <=? 90)%N.

Definition same_letter (a b : ascii) : bool :=
  Ascii.eqb a b
  || (is_capital a && (N_of_ascii b =? N_of_ascii a + 32)%N)
  || (is_capital b && (N_of_ascii a =? N_of_ascii b + 32)%N).

Fixpoint equal_ignoring_case (s t : string) : bool :=
  match s, t with
  | EmptyString, EmptyString => true
  | String a s', String b t' => same_letter a b && equal_ignoring_case s' t'
  | _, _ => false
  end.

(** [d[key]] on a dict. *)
Definition getitem (d : gmap string string) (key : string) : outcome string :=
  match d !! key with
  | Some v => Returned v
  | None => Raised (Exc KeyError ("'" ++ key ++ "'"))
  end.

Section Script.
Context {Obj : Type} `{Framework Obj}.

(** The four module-level variables of step 1. *)
Definition openai_api_key (environ : gmap string string) := getenv environ "subscription_key".
Definition deployment (environ : gmap string string) := getenv environ "deployment".
Definition endpoint (environ : gmap string string) := getenv environ "endpoint".
Definition api_version (environ : gmap string string) := getenv environ "api_version".

(** The keyword arguments of [AzureChatOpenAI(...)]. *)
Definition llm_kwargs (environ : gmap string string) : gmap string (value Obj) :=
  list_to_map
    [ ("azure_deployment", optional_str (deployment environ));
      ("azure_endpoint", optional_str (endpoint environ));
      ("api_key", optional_str (openai_api_key environ));
      ("api_version", optional_str (api_version environ));
      ("temperature", VInt 0) ].

(** The keyword arguments of [ConversationSummaryBufferMemory(...)]. *)
Definition memory_kwargs (llm : Obj) : gmap string (value Obj) :=
  list_to_map
    [ ("llm", VObj llm);
      ("memory_key", VStr "chat_history");
      ("max_token_limit", VInt 150);
      ("return_messages", VBool true);
      ("k", VInt 10) ].

(** The keyword arguments of [create_react_agent(...)]. *)
Definition agent_kwargs (llm prompt : Obj) : gmap string (value Obj) :=
  list_to_map
    [ ("llm", VObj llm);
      ("tools", VTools tools);
      ("prompt", VObj prompt);
      ("stop_sequence", VBool true) ].

(** The keyword arguments of [AgentExecutor.from_agent_and_tools(...)]. *)
Definition executor_kwargs (agent memory : Obj) : gmap string (value Obj) :=
  list_to_map
    [ ("agent", VObj agent);
      ("tools", VTools tools);
      ("memory", VObj memory);
      ("verbose", VBool true);
      ("handle_parsing_errors", VBool true) ].

(** The module-level statements of steps 3 to 5, in the order they run.
    The result is [agent_executor]. *)
Definition startup (environ : gmap string string) : outcome Obj :=
  prompt ← hub_pull "hwchase17/react";
  llm ← AzureChatOpenAI (llm_kwargs environ);
  memory ← ConversationSummaryBufferMemory (memory_kwargs llm);
  agent ← create_react_agent (agent_kwargs llm prompt);
  AgentExecutor_from_agent_and_tools (executor_kwargs agent memory).

(** ** Step 6: the main loop *)

Definition banner : string :=
  "🤖 ReAct Agent with Tools and Memory (LangChain + Azure OpenAI)".
Definition ask : string := nl ++ "Ask something (or 'quit'): ".
Definition label : string := nl ++ "📣 Response:" ++ nl.

(** A run of the loop: how it ended, what it did, the executor it leaves
    and the lines of standard input it did not read. *)
Record run : Type := Run {
  result : outcome unit;
  trace : list event;
  executor : Obj;
  unread : list string
}.

Definition after (evs : list event) (r : run) : run :=
  {| result := result r; trace := evs ++ trace r;
     executor := executor r; unread := unread r |}.

(** The [while True] loop over the lines standard input holds.
    [input(prompt)] writes the prompt and reads one line; at the end of
    the input it raises [EOFError]. *)
Fixpoint loop (agent_executor : Obj) (stdin : list string) : run :=
  match stdin with
  | [] => Run (Raised (Exc EOFError "EOF when reading a line"))
              [Stdout ask] agent_executor []
  | query :: rest =>
      if String.eqb (lower query) "quit" then
        Run (Returned tt) [Stdout ask; Stdin query] agent_executor rest
      else
        let call := {[ "input" := query ]} in
        match ainvoke agent_executor call with
        | (Raised e, ex) =>
            Run (Raised e) [Stdout ask; Stdin query; AInvoke call] ex rest
        | (Returned response, ex) =>
            match getitem response "output" with
            | Raised e =>
                Run (Raised e) [Stdout ask; Stdin query; AInvoke call] ex rest
            | Returned output =>
                after [Stdout ask; Stdin query; AInvoke call;
                       print [label; output]]
                      (loop ex rest)
            end
        end
  end.

(** [async def main()]. *)
Definition main (agent_executor : Obj) (stdin : list string) : run :=
  after [print [banner]] (loop agent_executor stdin).

(** The exit status of the interpreter: 0 when the script runs to its
    end, 1 when an exception is not caught. *)
Definition exit_status {A : Type} (r : outcome A) : Z :=
  match r with
  | Returned _ => 0
  | Raised _ => 1
  end.

Definition uncaught {A : Type} (r : outcome A) : option exc :=
  match r with
  | Returned _ => None
  | Raised e => Some e
  end.

Record process : Type := Process {
  exit_code : Z;
  traceback : option exc;
  console : list event
}.

(** The whole script, run as [__main__]: the module-level statements,
    then [asyncio.run(main())].  [argv] is the command line. *)
Definition script (argv : list string) (dotenv environ : gmap string string)
    (stdin : list string) : process :=
  match startup (load_dotenv dotenv environ) with
  | Raised e => Process 1 (Some e) []
  | Returned agent_executor =>
      let r := main agent_executor stdin in
      Process (exit_status (result r)) (uncaught (result r)) (trace r)
  end.

End Script.

Arguments run : clear implicits.

(** ** Sample surroundings, for evaluating the script *)

Definition is_str {Obj : Type} (v : option (value Obj)) : bool :=
  match v with
  | Some (VStr _) => true
  | _ => false
  end.

(** An LLM client constructor that wants a key, an endpoint and an API
    version, and takes the deployment as optional. *)
Definition sample_client (kw : gmap string (value nat)) : outcome nat :=
  if is_str (kw !! "api_key") && is_str (kw !! "azure_endpoint")
     && is_str (kw !! "api_version")
  then Returned 0%nat
  else Raised (Exc (OtherException "openai.OpenAIError") "Missing credentials.").

(** A framework whose executor answers every query with a fixed text and
    counts its calls. *)
Definition answering : Framework nat := {|
  hub_pull := fun _ => Returned 0%nat;
  AzureChatOpenAI := sample_client;
  ConversationSummaryBufferMemory := fun _ => Returned 0%nat;
  create_react_agent := fun _ => Returned 0%nat;
  AgentExecutor_from_agent_and_tools := fun _ => Returned 0%nat;
  ainvoke := fun calls input =>
    (Returned (<[ "output" := "It is noon." ]> input), S calls)
|}.

(** The same framework with an LLM provider that cannot be reached. *)
Definition unreachable : Framework nat := {|
  hub_pull := fun _ => Returned 0%nat;
  AzureChatOpenAI := sample_client;
  ConversationSummaryBufferMemory := fun _ => Returned 0%nat;
  create_react_agent := fun _ => Returned 0%nat;
  AgentExecutor_from_agent_and_tools := fun _ => Returned 0%nat;
  ainvoke := fun calls input =>
    (Raised (Exc (OtherException "openai.APIConnectionError") "Connection error."),
     S calls)
|}.

Definition full_environ : gmap string string :=
  list_to_map [ ("subscription_key", "secret"); ("deployment", "gpt-4o");
                ("endpoint", "https://example.openai.azure.com/");
                ("api_version", "2024-02-01") ].

(** An environment that also sets variables named after the remaining
    options. *)
Definition tuned_environ : gmap string string :=
  <[ "temperature" := "0.7" ]>
    (<[ "max_token_limit" := "4000" ]>
       (<[ "k" := "2" ]> (<[ "max_iterations" := "3" ]> full_environ))).

(** A world in which the Wikipedia client knows one ambiguous title, one
    missing page and one network failure. *)
Definition sample_world : World := {|
  datetime_now := Datetime 2024 3 9 7 5 0 1500;
  datetime_fold := false;
  wikipedia_summary := fun query =>
    if String.eqb query "Mercury" then
      Raised (Exc DisambiguationError "Mercury may refer to: Mercury (planet), Mercury (element)")
    else if String.eqb query "Qwxzy" then
      Raised (Exc PageError "Page id Qwxzy does not match any pages.")
    else if String.eqb query "" then
      Raised (Exc (OtherException "requests.exceptions.ConnectionError") "Connection refused")
    else Returned ("Summary of " ++ query)
|}.

(** A world in which the user interrupts the program while the Wikipedia
    client is at work, and one in which the client's exception cannot be
    turned into text. *)
Definition interrupted_world : World := {|
  datetime_now := Datetime 2024 3 9 7 5 0 1500;
  datetime_fold := true;
  wikipedia_summary := fun _ => Raised (NotException KeyboardInterrupt "")
|}.

Definition unprintable_world : World := {|
  datetime_now := Datetime 2024 11 3 1 30 0 0;
  datetime_fold := false;
  wikipedia_summary := fun _ =>
    Raised (StrRaises DisambiguationError
              (OfException (Exc (OtherException "TypeError")
                                "sequence item 0: expected str instance")))
|}.

(** A framework whose executor hands back the dict it was called with, so
    that the response holds no output. *)
Definition silent : Framework nat := {|
  hub_pull := fun _ => Returned 0%nat;
  AzureChatOpenAI := sample_client;
  ConversationSummaryBufferMemory := fun _ => Returned 0%nat;
  create_react_agent := fun _ => Returned 0%nat;
  AgentExecutor_from_agent_and_tools := fun _ => Returned 0%nat;
  ainvoke := fun calls input => (Returned input, S calls)
|}.

(** The test that keyword arguments carry the temperature 0. *)
Definition zero_temperature {Obj : Type} (kw : gmap string (value Obj)) : bool :=
  match kw !! "temperature" with
  | Some (VInt z) => Z.eqb z 0
  | _ => false
  end.

(** The framework [F] with an LLM client constructor that refuses the
    keyword arguments failing the test [accepts], and is the constructor of
    [F] otherwise. *)
Definition guarded {Obj : Type} (F : Framework Obj)
    (accepts : gmap string (value Obj) -> bool) : Framework Obj := {|
  hub_pull := @hub_pull Obj F;
  AzureChatOpenAI := fun kw =>
    if accepts kw then @AzureChatOpenAI Obj F kw
    else Raised (Exc (OtherException "ValueError") "keyword arguments refused");
  ConversationSummaryBufferMemory := @ConversationSummaryBufferMemory Obj F;
  create_react_agent := @create_react_agent Obj F;
  AgentExecutor_from_agent_and_tools := @AgentExecutor_from_agent_and_tools Obj F;
  ainvoke := @ainvoke Obj F
|}.

(** ** Reading a trace *)

(** The test the loop makes on a line. *)
Definition quits (query : string) : bool := String.eqb (lower query) "quit".

(** The lines of standard input that come before the first one that quits. *)
Fixpoint before_quit (stdin : list string) : list string :=
  match stdin with
  | [] => []
  | query :: rest => if quits query then [] else query :: before_quit rest
  end.

(** The lines a trace has read, the invocations it has made and the answers
    it has printed (the texts written that begin with [label]), each in the
    order of the trace. *)
Definition lines_read (tr : list event) : list string :=
  omap (fun ev => match ev with Stdin line => Some line | _ => None end) tr.

Definition invocations (tr : list event) : list (gmap string string) :=
  omap (fun ev => match ev with AInvoke input => Some input | _ => None end) tr.

Definition answers (tr : list event) : list string :=
  omap (fun ev => match ev with
                  | Stdout text => if String.prefix label text then Some text else None
                  | _ => None
                  end) tr.

(** The capital form of a small letter. *)
Definition upper_char (c : ascii) : ascii :=
  let n := N_of_ascii c in
  if (97 <=? n)%N && (n <=? 122)%N then ascii_of_N (n - 32) else c.

(** The ways of writing a text of small letters when each letter may be
    small or capital. *)
Fixpoint spellings (s : string) : list string :=
  match s with
  | EmptyString => [EmptyString]
  | String c s' =>
      flat_map (fun t => [String c t; String (upper_char c) t]) (spellings s')
  end.

(** * Properties of the tools *)



(** What the tool does with each kind of thing the client can raise. *)
Lemma get_wikipedia_summary_handlers (w : World) (query : string) (x : raised) :
  wikipedia_summary w query = Raised x ->
  get_wikipedia_summary w query =
  match x with
  | OfException e =>
      match exc_cls e with
      | DisambiguationError => Returned ("Disambiguation error: " ++ exc_str e)
      | PageError => Returned "Page not found."
      | _ => Returned (exc_str e)
      end
  | StrRaises PageError _ => Returned "Page not found."
  | StrRaises _ by_str => Raised by_str
  | NotException cls text => Raised (NotException cls text)
  end.
Proof.
  intros Hcall. unfold get_wikipedia_summary. rewrite Hcall.
  destruct x as [e | cls by_str | cls text]; cbn [exception_class str].
  - destruct (exc_cls e); reflexivity.
  - destruct cls; reflexivity.
  - reflexivity.
Qed.

(** The tool raises only what the client raised and no handler caught, or
    what [str(e)] raised inside a handler. *)
Lemma get_wikipedia_summary_raises (w : World) (query : string) (x : raised) :
  get_wikipedia_summary w query = Raised x <->
  (exception_class x = None /\ wikipedia_summary w query = Raised x) \/
  (exists cls : exc_class,
      cls <> PageError /\ wikipedia_summary w query = Raised (StrRaises cls x)).
Proof.
  split.
  - destruct (wikipedia_summary w query) as [summary | y] eqn:Hcall.
    + unfold get_wikipedia_summary. rewrite Hcall. discriminate.
    + rewrite (get_wikipedia_summary_handlers w query y Hcall).
      destruct y as [e | cls by_str | cls text].
      * destruct (exc_cls e); discriminate.
      * destruct cls; try discriminate;
          intros [= <-]; right; eexists; (split; [| reflexivity]); discriminate.
      * intros [= <-]. left. split; reflexivity.
  - intros [[Hcls Hcall] | (cls & Hcls & Hcall)].
    + rewrite (get_wikipedia_summary_handlers w query x Hcall).
      destruct x as [e | cls by_str | cls text]; cbn in Hcls; try discriminate Hcls.
      reflexivity.
    + rewrite (get_wikipedia_summary_handlers w query _ Hcall).
      destruct cls; [reflexivity | contradiction | reflexivity | reflexivity | reflexivity].
Qed.

(** C10, as the code has it.  For every query the Wikipedia lookup function
    hands on the summary the client returns, and when the client raises an
    exception of a class derived from Exception it returns a string (the
    text of the exception when the class is neither DisambiguationError nor
    PageError) and lets nothing reach its caller.  It raises exactly in two
    cases: the client raised something whose class is not derived from
    Exception (KeyboardInterrupt, SystemExit, asyncio.CancelledError), which
    it lets through, or str(e) itself raised inside the first or the third
    handler. *)
Theorem get_wikipedia_summary_catches_exceptions (w : World) (query : string) :
  (forall summary : string,
      wikipedia_summary w query = Returned summary ->
      get_wikipedia_summary w query = Returned summary) /\
  (forall e : exc,
      wikipedia_summary w query = Raised e ->
      exists s : string,
        get_wikipedia_summary w query = Returned s /\
        (exc_cls e <> DisambiguationError -> exc_cls e <> PageError ->
         s = exc_str e)) /\
  (forall x : raised,
      get_wikipedia_summary w query = Raised x <->
      (exception_class x = None /\ wikipedia_summary w query = Raised x) \/
      (exists cls : exc_class,
          cls <> PageError /\ wikipedia_summary w query = Raised (StrRaises cls x))).
Proof.
  split; [| split].
  - intros summary Hcall. unfold get_wikipedia_summary. now rewrite Hcall.
  - intros e Hcall. rewrite (get_wikipedia_summary_handlers w query e Hcall).
    destruct (exc_cls e) eqn:Hcls; eexists; (split; [reflexivity |]);
      intros Hd Hp; try reflexivity; contradiction.
  - intros x. apply get_wikipedia_summary_raises.
Qed.

Lemma get_wikipedia_summary_catches_exceptions_witness :
  (exists s : string,
      get_wikipedia_summary sample_world "" = Returned s /\ s = "Connection refused") /\
  get_wikipedia_summary interrupted_world "Mercury"
  = Raised (NotException KeyboardInterrupt "").
Proof.
  destruct (get_wikipedia_summary_catches_exceptions sample_world "") as (_ & Hcaught & _).
  destruct (get_wikipedia_summary_catches_exceptions interrupted_world "Mercury")
    as (_ & _ & Hraises).
  split.
  - destruct (Hcaught (Exc (OtherException "requests.exceptions.ConnectionError")
                           "Connection refused") eq_refl) as (s & Hs & Htext).
    exists s. split; [exact Hs |]. apply Htext; discriminate.
  - apply Hraises. left. split; reflexivity.
Defined.

(** C10, as the spec states it, fails.  When the user interrupts the
    program while the client is at work, the client call raises
    KeyboardInterrupt; no handler of the function catches it and it reaches
    the caller, so the function returns no string. *)
Lemma keyboard_interrupt_leaves_the_tool :
  wikipedia_summary interrupted_world "Mercury"
  = Raised (NotException KeyboardInterrupt "") /\
  get_wikipedia_summary interrupted_world "Mercury"
  = Raised (NotException KeyboardInterrupt "") /\
  ~ (exists s : string, get_wikipedia_summary interrupted_world "Mercury" = Returned s).
Proof.
  split; [reflexivity |]. split; [reflexivity |].
  intros [s Hs]. discriminate Hs.
Qed.

(** When [str(e)] raises inside the first handler, what it raised leaves
    the function. *)
Example unprintable_error_leaves_the_tool :
  get_wikipedia_summary unprintable_world "Mercury"
  = Raised (OfException (Exc (OtherException "TypeError")
                             "sequence item 0: expected str instance")).
Proof. reflexivity. Qed.

(** ** The clock tool *)

Lemma digit_value_digit (n : N) : digit_value (digit n) = Some (n mod 10)%N.
Proof.
  unfold digit_value, digit.
  assert (Hlt : (n mod 10 < 10)%N) by (apply N.mod_lt; discriminate).
  revert Hlt. generalize (n mod 10)%N. intros m Hlt.
  rewrite N_ascii_embedding by lia.
  replace ((48 <=? 48 + m)%N && (48 + m <=? 57)%N) with true.
  - f_equal. lia.
  - symmetry. apply andb_true_iff. split; apply N.leb_le; lia.
Qed.

Lemma append_cons (c : ascii) (a b : string) : String c a ++ b = String c (a ++ b).
Proof. reflexivity. Qed.

Lemma append_assoc (a b c : string) : (a ++ b) ++ c = a ++ (b ++ c).
Proof.
  induction a as [| x a IH]; [reflexivity |].
  rewrite !append_cons. f_equal. exact IH.
Qed.

(** Reading [w] digits back from what [digits w n] wrote gives the [w] low
    digits of [n] and leaves the rest of the text. *)
Lemma number_digits (w : nat) : forall (n : N) (rest : string),
  number w (digits w n ++ rest) = Some (n mod 10 ^ N.of_nat w, rest)%N.
Proof.
  induction w as [| w IH]; intros n rest.
  - simpl. now rewrite N.mod_1_r.
  - cbn [number digits]. rewrite append_assoc, IH, append_cons.
    rewrite digit_value_digit. do 2 f_equal.
    rewrite Nat2N.inj_succ, N.pow_succ_r'.
    rewrite N.Div0.mod_mul_r. apply N.add_comm.
Qed.

Lemma number_digits_small (w : nat) (n : N) (rest : string) :
  (n < 10 ^ N.of_nat w)%N ->
  number w (digits w n ++ rest) = Some (n, rest).
Proof. intros Hlt. rewrite number_digits. now rewrite N.mod_small. Qed.

Lemma in_range_true (lo n hi : N) : (lo <= n <= hi)%N -> in_range lo n hi = true.
Proof.
  intros [Hlo Hhi]. unfold in_range.
  apply andb_true_iff. split; now apply N.leb_le.
Qed.

Lemma expect_literal (c : ascii) (rest : string) :
  expect c (String c EmptyString ++ rest) = Some rest.
Proof. rewrite append_cons. cbn [expect]. now rewrite Ascii.eqb_refl. Qed.

Lemma append_empty_r (a : string) : a ++ "" = a.
Proof.
  induction a as [| x a IH]; [reflexivity |].
  rewrite append_cons. f_equal. exact IH.
Qed.

Lemma fraction_microsecond (us : N) :
  (us < 1000000)%N ->
  fraction (if (us =? 0)%N then "" else "." ++ digits 6 us) = Some (us, "").
Proof.
  intros Hus. destruct (N.eqb_spec us 0) as [-> | Hne].
  - reflexivity.
  - rewrite append_cons. cbn [fraction]. rewrite Ascii.eqb_refl.
    change ("" ++ digits 6 us) with (digits 6 us).
    rewrite <- (append_empty_r (digits 6 us)).
    apply number_digits_small. cbn. lia.
Qed.

Ltac read_field :=
  rewrite number_digits_small by (cbn; lia);
  cbn [mbind option_bind];
  try (rewrite expect_literal; cbn [mbind option_bind]).

(** The text [isoformat] writes for a valid [datetime] is ISO 8601 and
    denotes that very date and time of day. *)
Lemma parse_isoformat (d : datetime) :
  valid_datetime d -> parse_iso8601 (isoformat d) = Some d.
Proof.
  destruct d as [y mo dd h mi sec us].
  unfold valid_datetime, isoformat, parse_iso8601.
  cbn [year month day hour minute second microsecond].
  intros (Hy & Hmo & Hd & Hh & Hmi & Hs & Hus).
  do 6 read_field.
  rewrite fraction_microsecond by exact Hus. cbn [mbind option_bind].
  rewrite !in_range_true by lia. reflexivity.
Qed.

(** C6.  The clock tool ignores what it is called with, returns for every
    call the current timestamp as an ISO 8601 text (the text parses, as
    ISO 8601, to the date and time of day the clock showed) and never
    raises. *)
Theorem clock_tool_returns_iso8601 (w : World)
    (args : list string) (kwargs : list (string * string)) :
  valid_datetime (datetime_now w) ->
  get_current_datetime w args kwargs = get_current_datetime w [] [] /\
  exists text : string,
    get_current_datetime w args kwargs = Returned text /\
    parse_iso8601 text = Some (datetime_now w).
Proof.
  intros Hvalid. split; [reflexivity |].
  exists (isoformat (datetime_now w)). split; [reflexivity |].
  now apply parse_isoformat.
Qed.

Lemma clock_tool_returns_iso8601_witness :
  get_current_datetime sample_world ["now"] [("tz", "UTC")]
  = get_current_datetime sample_world [] [] /\
  exists text : string,
    get_current_datetime sample_world ["now"] [("tz", "UTC")] = Returned text /\
    parse_iso8601 text = Some (Datetime 2024 3 9 7 5 0 1500).
Proof.
  apply (clock_tool_returns_iso8601 sample_world ["now"] [("tz", "UTC")]).
  unfold valid_datetime. cbn. lia.
Defined.

(** Without any assumption on the clock reading, the tool returns. *)
Lemma clock_tool_total (w : World) (args : list string) (kwargs : list (string * string)) :
  get_current_datetime w args kwargs = Returned (isoformat (datetime_now w)).
Proof. reflexivity. Qed.

Example isoformat_sample :
  isoformat (datetime_now sample_world) = "2024-03-09T07:05:00.001500".
Proof. reflexivity. Qed.

Example isoformat_whole_second :
  isoformat (Datetime 1999 12 31 23 59 59 0) = "1999-12-31T23:59:59".
Proof. reflexivity. Qed.

(** * Properties of the interactive loop *)

Lemma lower_char_small_letter (c d : ascii) :
  In d ["q"; "u"; "i"; "t"]%char ->
  Ascii.eqb (lower_char c) d = same_letter c d.
Proof.
  intros Hd. repeat (destruct Hd as [<- | Hd]; [| try contradiction]);
    destruct c as [[] [] [] [] [] [] [] []]; reflexivity.
Qed.

(** The test the loop makes, [query.lower() == "quit"], is equality with
    "quit" when case is ignored. *)
Lemma lower_is_quit (query : string) :
  String.eqb (lower query) "quit" = equal_ignoring_case query "quit".
Proof.
  destruct query as [| c1 [| c2 [| c3 [| c4 [| c5 query]]]]];
    cbn [lower String.eqb equal_ignoring_case];
    rewrite ?andb_false_r; try reflexivity.
  all: rewrite <- ?lower_char_small_letter by (cbn; tauto).
  all: repeat (destruct (Ascii.eqb (lower_char _) _); cbn [andb]; try reflexivity).
Qed.

Section Loop.
Context {Obj : Type} `{Framework Obj}.

Lemma result_after (evs : list event) (r : run Obj) : result (after evs r) = result r.
Proof. reflexivity. Qed.

Lemma unread_after (evs : list event) (r : run Obj) : unread (after evs r) = unread r.
Proof. reflexivity. Qed.

(** One turn of the loop, as the source writes it. *)
Lemma loop_turn (agent_executor : Obj) (query : string) (rest : list string) :
  loop agent_executor (query :: rest) =
  if String.eqb (lower query) "quit" then
    Run (Returned tt) [Stdout ask; Stdin query] agent_executor rest
  else
    match ainvoke agent_executor {[ "input" := query ]} with
    | (Raised e, ex) =>
        Run (Raised e) [Stdout ask; Stdin query; AInvoke {[ "input" := query ]}] ex rest
    | (Returned response, ex) =>
        match getitem response "output" with
        | Raised e =>
            Run (Raised e) [Stdout ask; Stdin query; AInvoke {[ "input" := query ]}] ex rest
        | Returned output =>
            after [Stdout ask; Stdin query; AInvoke {[ "input" := query ]};
                   print [label; output]]
                  (loop ex rest)
        end
    end.
Proof. reflexivity. Qed.

(** C2.  For every line the loop reads: when the line equals "quit" with
    case ignored, the loop ends there, normally (exit status 0), the
    executor is not invoked and is left as it was.  For every other line
    the executor is invoked with that line, unchanged, as its input, and
    the turn is what that invocation gives: its exception ends the loop, a
    response without output ends it with KeyError, and a response with an
    output is printed before the loop goes on, with the executor the
    invocation left, to the next line. *)
Theorem quit_or_forward (agent_executor : Obj) (query : string) (rest : list string) :
  let r := loop agent_executor (query :: rest) in
  if equal_ignoring_case query "quit" then
    r = Run (Returned tt) [Stdout ask; Stdin query] agent_executor rest /\
    exit_status (result r) = 0%Z
  else
    match ainvoke agent_executor {[ "input" := query ]} with
    | (Raised e, ex) =>
        r = Run (Raised e)
                [Stdout ask; Stdin query; AInvoke {[ "input" := query ]}] ex rest
    | (Returned response, ex) =>
        match response !! "output" with
        | None =>
            r = Run (Raised (Exc KeyError "'output'"))
                    [Stdout ask; Stdin query; AInvoke {[ "input" := query ]}] ex rest
        | Some output =>
            trace r =
              Stdout ask :: Stdin query :: AInvoke {[ "input" := query ]}
              :: Stdout (nl ++ "📣 Response:" ++ nl ++ " " ++ output ++ nl)
              :: trace (loop ex rest) /\
            result r = result (loop ex rest) /\
            unread r = unread (loop ex rest) /\
            executor r = executor (loop ex rest)
        end
    end.
Proof.
  cbv zeta. rewrite loop_turn, lower_is_quit.
  destruct (equal_ignoring_case query "quit").
  - split; reflexivity.
  - destruct (ainvoke agent_executor {[ "input" := query ]}) as [[response | e] ex].
    + unfold getitem. destruct (response !! "output") as [output |].
      * repeat split.
      * reflexivity.
    + reflexivity.
Qed.

(** C8.  Whenever an invocation of the executor returns a response with an
    output text, the loop prints, right after the invocation and before
    anything else, the fixed label (a newline, the text 📣 Response: and a
    newline), a space, the output text and a newline; the label is the same
    text on every turn.  The loop then goes on with the next line of
    input. *)
Theorem answer_printed_after_label (agent_executor ex : Obj) (query output : string)
    (response : gmap string string) (rest : list string) :
  String.eqb (lower query) "quit" = false ->
  ainvoke agent_executor {[ "input" := query ]} = (Returned response, ex) ->
  response !! "output" = Some output ->
  let r := loop agent_executor (query :: rest) in
  trace r =
    Stdout ask :: Stdin query :: AInvoke {[ "input" := query ]}
    :: Stdout (nl ++ "📣 Response:" ++ nl ++ " " ++ output ++ nl)
    :: trace (loop ex rest) /\
  result r = result (loop ex rest) /\
  unread r = unread (loop ex rest) /\
  executor r = executor (loop ex rest).
Proof.
  intros Hquit Hcall Hout. cbv zeta. rewrite loop_turn, Hquit, Hcall.
  unfold getitem. rewrite Hout. repeat split.
Qed.

(** C1, as the code has it.  An exception raised by the invocation of the
    executor for a query (a failed call to the LLM provider, for one) is
    not caught by the loop: the loop ends with that exception, having
    printed nothing for it and leaving the following lines unread, and a
    process whose loop ends so exits with status 1.  The two tool functions
    return a string whenever the Wikipedia client returns or raises an
    exception of a class derived from Exception, so such a failure inside
    a tool does not leave it; a tool raises only what the client raised
    that is not derived from Exception, or what str(e) raised in a
    handler.  The executor is built with handle_parsing_errors set, which
    leaves parsing failures to the framework. *)
Theorem invocation_failure_ends_loop (agent_executor ex : Obj) (query : string)
    (e : exc) (rest : list string) :
  String.eqb (lower query) "quit" = false ->
  ainvoke agent_executor {[ "input" := query ]} = (Raised e, ex) ->
  (loop agent_executor (query :: rest) =
     Run (Raised e) [Stdout ask; Stdin query; AInvoke {[ "input" := query ]}] ex rest /\
   exit_status (result (main agent_executor (query :: rest))) = 1%Z) /\
  (forall (t : Tool) (w : World) (input : string),
      In t tools ->
      ((exists summary : string, wikipedia_summary w input = Returned summary) \/
       (exists e' : exc, wikipedia_summary w input = Raised e') ->
       exists text : string, func t w input = Returned text) /\
      (forall x : raised,
          func t w input = Raised x ->
          (exception_class x = None /\ wikipedia_summary w input = Raised x) \/
          (exists cls : exc_class,
              cls <> PageError /\
              wikipedia_summary w input = Raised (StrRaises cls x)))) /\
  (forall agent memory : Obj,
      executor_kwargs agent memory !! "handle_parsing_errors" = Some (VBool true)).
Proof.
  intros Hquit Hcall. split; [| split].
  - assert (Hloop : loop agent_executor (query :: rest) =
              Run (Raised e) [Stdout ask; Stdin query; AInvoke {[ "input" := query ]}] ex rest)
      by (rewrite loop_turn, Hquit, Hcall; reflexivity).
    split; [exact Hloop |].
    unfold main. rewrite result_after, Hloop. reflexivity.
  - intros t w input [<- | [<- | []]]; cbn [func]; split.
    + intros _. eexists. reflexivity.
    + discriminate.
    + intros [[summary Hclient] | [e' Hclient]].
      * exists summary. unfold get_wikipedia_summary. now rewrite Hclient.
      * rewrite (get_wikipedia_summary_handlers w input e' Hclient).
        destruct (exc_cls e'); eexists; reflexivity.
    + intros x. apply get_wikipedia_summary_raises.
  - intros agent memory. reflexivity.
Qed.

End Loop.

Lemma answer_printed_after_label_witness :
  let r := @loop nat answering 0%nat ["What time is it?"; "quit"] in
  trace r =
    Stdout ask :: Stdin "What time is it?"
    :: AInvoke {[ "input" := "What time is it?" ]}
    :: Stdout (nl ++ "📣 Response:" ++ nl ++ " " ++ "It is noon." ++ nl)
    :: trace (@loop nat answering 1%nat ["quit"]) /\
  result r = result (@loop nat answering 1%nat ["quit"]) /\
  unread r = unread (@loop nat answering 1%nat ["quit"]) /\
  executor r = executor (@loop nat answering 1%nat ["quit"]).
Proof.
  apply (@answer_printed_after_label nat answering 0%nat 1%nat
           "What time is it?" "It is noon."
           (<[ "output" := "It is noon." ]> {[ "input" := "What time is it?" ]})
           ["quit"]).
  - reflexivity.
  - reflexivity.
  - reflexivity.
Defined.

Lemma invocation_failure_ends_loop_witness :
  @loop nat unreachable 0%nat ["What time is it?"; "quit"] =
  Run (Raised (Exc (OtherException "openai.APIConnectionError") "Connection error."))
      [Stdout ask; Stdin "What time is it?";
       AInvoke {[ "input" := "What time is it?" ]}]
      1%nat ["quit"].
Proof.
  apply (@invocation_failure_ends_loop nat unreachable 0%nat 1%nat
           "What time is it?" _ ["quit"]).
  - reflexivity.
  - reflexivity.
Defined.

(** C1, as the spec states it, fails.  With a provider that cannot be
    reached, the first query makes the invocation raise; the loop prints
    no message for it, the next line ("quit") is never read, and the
    process ends with the exception uncaught and exit status 1. *)
Lemma provider_failure_stops_the_loop :
  let r := @main nat unreachable 0%nat ["What time is it?"; "quit"] in
  result r = Raised (Exc (OtherException "openai.APIConnectionError") "Connection error.") /\
  trace r = [print [banner]; Stdout ask; Stdin "What time is it?";
             AInvoke {[ "input" := "What time is it?" ]}] /\
  unread r = ["quit"] /\
  @script nat unreachable [] ∅ full_environ ["What time is it?"; "quit"] =
  Process 1 (Some (Exc (OtherException "openai.APIConnectionError") "Connection error."))
          (trace r).
Proof. cbv zeta. repeat split. Qed.

Example quit_in_any_case :
  map (fun q => equal_ignoring_case q "quit") ["quit"; "QUIT"; "Quit"; "qUiT"]
  = [true; true; true; true].
Proof. reflexivity. Qed.

Example not_quit :
  map (fun q => String.eqb (lower q) "quit") [""; "quit "; " quit"; "quiet"; "exit"; "q"]
  = [false; false; false; false; false; false].
Proof. reflexivity. Qed.

(** A session of two lines: one query, then QUIT. *)
Example session_sample :
  @script nat answering [] ∅ full_environ ["What time is it?"; "QUIT"; "unread"] =
  Process 0 None
    [ print [banner];
      Stdout ask; Stdin "What time is it?";
      AInvoke {[ "input" := "What time is it?" ]};
      Stdout (label ++ " It is noon." ++ nl);
      Stdout ask; Stdin "QUIT" ].
Proof. reflexivity. Qed.

(** At the end of standard input, [input] raises and the process ends. *)
Example end_of_input :
  @script nat answering [] ∅ full_environ [] =
  Process 1 (Some (Exc EOFError "EOF when reading a line"))
    [ print [banner]; Stdout ask ].
Proof. reflexivity. Qed.

(** * Properties of the configuration *)

Section Configuration.
Context {Obj : Type} {F : Framework Obj}.

(** C7.  Whatever the environment holds, the LLM client is constructed
    with the keyword argument temperature set to 0.  The keyword arguments
    built from any environment carry temperature 0; startup gives an
    executor only when the constructor has returned on exactly those
    keyword arguments; and startup never applies the constructor to
    keyword arguments with another temperature, since neither startup nor
    the whole process changes when the constructor is made to refuse them.
    So two runs of the script, even in different environments, configure
    the same temperature. *)
Theorem temperature_fixed_at_zero (environ environ' : gmap string string) :
  (llm_kwargs (Obj := Obj) environ !! "temperature" = Some (VInt 0) /\
   llm_kwargs (Obj := Obj) environ !! "temperature"
   = llm_kwargs (Obj := Obj) environ' !! "temperature") /\
  (forall agent_executor : Obj,
      startup environ = Returned agent_executor ->
      exists llm : Obj, AzureChatOpenAI (llm_kwargs environ) = Returned llm) /\
  @startup Obj (guarded F zero_temperature) environ = @startup Obj F environ /\
  (forall (argv : list string) (dotenv : gmap string string) (stdin : list string),
      @script Obj (guarded F zero_temperature) argv dotenv environ stdin
      = @script Obj F argv dotenv environ stdin).
Proof.
  split; [split; reflexivity |]. split; [| split].
  - unfold startup. intros agent_executor Hstart.
    destruct (hub_pull "hwchase17/react") as [prompt |]; [| discriminate Hstart].
    cbn [mbind outcome_bind] in Hstart.
    destruct (AzureChatOpenAI (llm_kwargs environ)) as [llm |];
      [now exists llm | discriminate Hstart].
  - reflexivity.
  - intros argv dotenv stdin. reflexivity.
Qed.


End Configuration.

Lemma temperature_fixed_at_zero_witness :
  exists llm : nat, @AzureChatOpenAI nat answering (llm_kwargs full_environ) = Returned llm.
Proof.
  destruct (@temperature_fixed_at_zero nat answering full_environ tuned_environ)
    as (_ & Hcalled & _).
  apply (Hcalled 0%nat). reflexivity.
Defined.


Lemma bind_raised {A B : Type} (m : outcome A) (f : A -> outcome B) (e : exc) :
  m ≫= f = Raised e ->
  m = Raised e \/ exists a : A, m = Returned a /\ f a = Raised e.
Proof.
  destruct m as [a | e']; cbn [mbind outcome_bind].
  - intros Hf. right. exists a. split; [reflexivity | exact Hf].
  - intros [= <-]. left. reflexivity.
Qed.

Section Startup.
Context {Obj : Type} `{Framework Obj}.

(** An exception at startup comes from one of the five calls into the
    framework. *)
Lemma startup_raises (environ : gmap string string) (e : exc) :
  startup environ = Raised e ->
  hub_pull "hwchase17/react" = Raised e \/
  AzureChatOpenAI (llm_kwargs environ) = Raised e \/
  (exists llm : Obj, ConversationSummaryBufferMemory (memory_kwargs llm) = Raised e) \/
  (exists llm prompt : Obj, create_react_agent (agent_kwargs llm prompt) = Raised e) \/
  (exists agent memory : Obj,
      AgentExecutor_from_agent_and_tools (executor_kwargs agent memory) = Raised e).
Proof.
  unfold startup. intros Hstart.
  apply bind_raised in Hstart as [Hpull | (prompt & _ & Hstart)]; [tauto |].
  apply bind_raised in Hstart as [Hllm | (llm & _ & Hstart)]; [tauto |].
  apply bind_raised in Hstart as [Hmem | (memory & _ & Hstart)];
    [right; right; left; eauto |].
  apply bind_raised in Hstart as [Hagent | (agent & _ & Hstart)];
    [right; right; right; left; eauto |].
  right; right; right; right. eauto.
Qed.

(** Once startup has returned the executor, the process is what [main]
    does: its console starts with the banner and its exit status is that
    of the loop. *)
Lemma script_runs_main (argv : list string) (dotenv environ : gmap string string)
    (stdin : list string) (agent_executor : Obj) :
  startup (load_dotenv dotenv environ) = Returned agent_executor ->
  script argv dotenv environ stdin =
  Process (exit_status (result (loop agent_executor stdin)))
          (uncaught (result (loop agent_executor stdin)))
          (print [banner] :: trace (loop agent_executor stdin)).
Proof. intros Hstart. unfold script. rewrite Hstart. reflexivity. Qed.

(** C4, as the code has it.  The script does not check the settings: a
    variable that is missing from the environment is read as None and
    handed as such, in the keyword arguments, to the LLM client
    constructor.  Startup is aborted exactly when one of the five calls
    into the framework raises, each call being made on what the calls
    before it returned: the prompt download, the LLM client constructor on
    those keyword arguments, the memory constructor on the client, the
    agent constructor on the client and the prompt, the executor
    constructor on the agent and the memory.  Then nothing has been
    printed or read, the exception is uncaught and the exit status is 1.
    When none of them raises, the loop begins (the banner and the first
    prompt are printed), whatever settings are missing. *)
Theorem startup_aborts_when_framework_raises (argv : list string)
    (dotenv environ : gmap string string) (stdin : list string) :
  let env := load_dotenv dotenv environ in
  (llm_kwargs (Obj := Obj) env !! "azure_deployment" = Some (optional_str (env !! "deployment")) /\
   llm_kwargs (Obj := Obj) env !! "azure_endpoint" = Some (optional_str (env !! "endpoint")) /\
   llm_kwargs (Obj := Obj) env !! "api_key" = Some (optional_str (env !! "subscription_key")) /\
   llm_kwargs (Obj := Obj) env !! "api_version" = Some (optional_str (env !! "api_version"))) /\
  (forall e : exc,
      startup env = Raised e <->
      hub_pull "hwchase17/react" = Raised e \/
      exists prompt : Obj,
        hub_pull "hwchase17/react" = Returned prompt /\
        (AzureChatOpenAI (llm_kwargs env) = Raised e \/
         exists llm : Obj,
           AzureChatOpenAI (llm_kwargs env) = Returned llm /\
           (ConversationSummaryBufferMemory (memory_kwargs llm) = Raised e \/
            exists memory : Obj,
              ConversationSummaryBufferMemory (memory_kwargs llm) = Returned memory /\
              (create_react_agent (agent_kwargs llm prompt) = Raised e \/
               exists agent : Obj,
                 create_react_agent (agent_kwargs llm prompt) = Returned agent /\
                 AgentExecutor_from_agent_and_tools (executor_kwargs agent memory)
                 = Raised e)))) /\
  match startup env with
  | Raised e => script argv dotenv environ stdin = Process 1 (Some e) []
  | Returned agent_executor =>
      exists later : list event,
        console (script argv dotenv environ stdin)
        = print [banner] :: Stdout ask :: later
  end.
Proof.
  cbv zeta. split; [repeat split |]. split.
  - intros e. unfold startup. split.
    + intros Hstart.
      apply bind_raised in Hstart as [Hpull | (prompt & Hpull & Hstart)]; [now left |].
      right. exists prompt. split; [exact Hpull |].
      apply bind_raised in Hstart as [Hllm | (llm & Hllm & Hstart)]; [now left |].
      right. exists llm. split; [exact Hllm |].
      apply bind_raised in Hstart as [Hmem | (memory & Hmem & Hstart)]; [now left |].
      right. exists memory. split; [exact Hmem |].
      apply bind_raised in Hstart as [Hagent | (agent & Hagent & Hstart)]; [now left |].
      right. exists agent. split; [exact Hagent | exact Hstart].
    + intros [Hpull | (prompt & Hpull & Hrest)]; rewrite Hpull; [reflexivity |].
      cbn [mbind outcome_bind].
      destruct Hrest as [Hllm | (llm & Hllm & Hrest)]; rewrite Hllm; [reflexivity |].
      cbn [mbind outcome_bind].
      destruct Hrest as [Hmem | (memory & Hmem & Hrest)]; rewrite Hmem; [reflexivity |].
      cbn [mbind outcome_bind].
      destruct Hrest as [Hagent | (agent & Hagent & Hexec)]; rewrite Hagent; [reflexivity |].
      cbn [mbind outcome_bind]. exact Hexec.
  - destruct (startup (load_dotenv dotenv environ)) as [agent_executor | e] eqn:Hstart.
    + unfold script. rewrite Hstart. cbn [console]. unfold main.
      destruct stdin as [| query rest].
      * exists []. reflexivity.
      * rewrite loop_turn.
        destruct (String.eqb (lower query) "quit"); [eexists; reflexivity |].
        destruct (ainvoke agent_executor {[ "input" := query ]}) as [[response | e] ex];
          [| eexists; reflexivity].
        destruct (getitem response "output"); eexists; reflexivity.
    + unfold script. now rewrite Hstart.
Qed.

End Startup.

(** C4, as the spec states it, fails.  With the deployment missing from
    the environment and a client constructor that takes the deployment as
    optional, no error aborts startup: the constructor receives None for
    the deployment, the loop begins, and on "quit" the process ends with
    exit status 0. *)
Lemma startup_aborts_when_framework_raises_witness :
  @startup nat answering (load_dotenv ∅ (delete "api_version" full_environ))
  = Raised (Exc (OtherException "openai.OpenAIError") "Missing credentials.").
Proof.
  destruct (@startup_aborts_when_framework_raises nat answering []
              ∅ (delete "api_version" full_environ) ["quit"]) as (_ & Hexact & _).
  apply Hexact. right. exists 0%nat. split; [reflexivity |].
  left. reflexivity.
Defined.

Lemma missing_deployment_reaches_the_loop :
  let environ := delete "deployment" full_environ in
  getenv environ "deployment" = None /\
  llm_kwargs (Obj := nat) environ !! "azure_deployment" = Some VNone /\
  @script nat answering [] ∅ environ ["quit"] =
  Process 0 None [print [banner]; Stdout ask; Stdin "quit"].
Proof. cbv zeta. repeat split. Qed.

(** * Further properties of the interactive loop *)

Lemma lines_read_app (tr tr' : list event) :
  lines_read (tr ++ tr')%list = (lines_read tr ++ lines_read tr')%list.
Proof. apply omap_app. Qed.

Lemma invocations_app (tr tr' : list event) :
  invocations (tr ++ tr')%list = (invocations tr ++ invocations tr')%list.
Proof. apply omap_app. Qed.

Lemma answers_app (tr tr' : list event) :
  answers (tr ++ tr')%list = (answers tr ++ answers tr')%list.
Proof. apply omap_app. Qed.

Lemma prefix_append (a b : string) : String.prefix a (a ++ b) = true.
Proof.
  induction a as [| c a IH]; [now destruct b |].
  rewrite append_cons. cbn [String.prefix].
  destruct (ascii_dec c c) as [_ | Hne]; [exact IH | contradiction].
Qed.

(** What [print] writes for an answer begins with the label; the prompt
    does not. *)
Lemma answers_of_turn (query output : string) (call : gmap string string) :
  answers [Stdout ask; Stdin query; AInvoke call; print [label; output]]
  = [label ++ " " ++ output ++ nl].
Proof.
  unfold answers, print. cbn [omap list_omap String.concat].
  change (String.prefix label ask) with false. cbn iota.
  rewrite !append_assoc, prefix_append. reflexivity.
Qed.

Section Sessions.
Context {Obj : Type} `{Framework Obj}.

Lemma loop_lines (stdin : list string) : forall agent_executor : Obj,
  (lines_read (trace (loop agent_executor stdin)) ++ unread (loop agent_executor stdin))%list
  = stdin.
Proof.
  induction stdin as [| query rest IH]; intros agent_executor; [reflexivity |].
  rewrite loop_turn.
  destruct (String.eqb (lower query) "quit"); [reflexivity |].
  destruct (ainvoke agent_executor {[ "input" := query ]}) as [[response | e] ex]; [| reflexivity].
  destruct (getitem response "output") as [output | e]; [| reflexivity].
  cbn [trace unread after]. rewrite lines_read_app.
  change (lines_read _ ++ lines_read ?tr)%list with (query :: lines_read tr).
  cbn [app]. f_equal. apply IH.
Qed.

Lemma loop_invocations (stdin : list string) : forall agent_executor : Obj,
  invocations (trace (loop agent_executor stdin))
  `prefix_of` map (fun query => {[ "input" := query ]}) (before_quit stdin).
Proof.
  induction stdin as [| query rest IH]; intros agent_executor; [apply prefix_nil |].
  rewrite loop_turn. cbn [before_quit]. unfold quits.
  destruct (String.eqb (lower query) "quit"); [apply prefix_nil |].
  destruct (ainvoke agent_executor {[ "input" := query ]}) as [[response | e] ex].
  - destruct (getitem response "output") as [output | e].
    + cbn [trace after]. rewrite invocations_app.
      change (invocations _ ++ invocations ?tr)%list with ({[ "input" := query ]} :: invocations tr).
      cbn [map]. apply prefix_cons, IH.
    + cbn [map]. apply prefix_cons, prefix_nil.
  - cbn [map]. apply prefix_cons, prefix_nil.
Qed.

Lemma loop_answers (stdin : list string) : forall agent_executor : Obj,
  (length (answers (trace (loop agent_executor stdin)))
   <= length (invocations (trace (loop agent_executor stdin)))
   <= S (length (answers (trace (loop agent_executor stdin)))))%nat.
Proof.
  induction stdin as [| query rest IH]; intros agent_executor; [vm_compute; lia |].
  rewrite loop_turn.
  destruct (String.eqb (lower query) "quit"); [vm_compute; lia |].
  destruct (ainvoke agent_executor {[ "input" := query ]}) as [[response | e] ex]; [| vm_compute; lia].
  destruct (getitem response "output") as [output | e]; [| vm_compute; lia].
  cbn [trace after]. rewrite answers_app, invocations_app, answers_of_turn.
  change (invocations [_; _; _; _]) with [{[ "input" := query ]} : gmap string string].
  specialize (IH ex). cbn [length app]. lia.
Qed.

Lemma loop_returns (stdin : list string) : forall agent_executor : Obj,
  result (loop agent_executor stdin) = Returned tt ->
  exists query : string,
    quits query = true /\
    stdin = (before_quit stdin ++ query :: unread (loop agent_executor stdin))%list.
Proof.
  induction stdin as [| query rest IH]; intros agent_executor; [discriminate |].
  rewrite loop_turn. cbn [before_quit]. unfold quits.
  destruct (String.eqb (lower query) "quit") eqn:Hquit.
  - intros _. exists query. split; [exact Hquit | reflexivity].
  - destruct (ainvoke agent_executor {[ "input" := query ]}) as [[response | e] ex]; [| discriminate].
    destruct (getitem response "output") as [output | e]; [| discriminate].
    cbn [result unread after]. intros Hret.
    destruct (IH ex Hret) as (q & Hq & Hrest).
    exists q. split; [exact Hq |]. cbn [app]. f_equal. exact Hrest.
Qed.

Lemma loop_missing_output (agent_executor ex : Obj) (query : string)
    (response : gmap string string) (rest : list string) :
  quits query = false ->
  ainvoke agent_executor {[ "input" := query ]} = (Returned response, ex) ->
  response !! "output" = None ->
  loop agent_executor (query :: rest) =
  Run (Raised (Exc KeyError "'output'"))
      [Stdout ask; Stdin query; AInvoke {[ "input" := query ]}] ex rest.
Proof.
  unfold quits. intros Hquit Hcall Hout. rewrite loop_turn, Hquit, Hcall.
  unfold getitem. rewrite Hout. reflexivity.
Qed.

(** X1.  Every line of standard input is either read by main, in order, or
    left unread: the lines read followed by the lines left are the
    input. *)
Theorem stdin_accounted (agent_executor : Obj) (stdin : list string) :
  (lines_read (trace (main agent_executor stdin)) ++ unread (main agent_executor stdin))%list
  = stdin.
Proof. apply loop_lines. Qed.

(** X2.  Whatever the executor does, the invocations main makes are, in
    order, input dicts of the lines that come before the first quitting
    line, one for each line of an initial part of them and each holding its
    line unchanged: no line is skipped, repeated or altered, and none after
    the quitting line is sent. *)
Theorem invocations_follow_input (agent_executor : Obj) (stdin : list string) :
  invocations (trace (main agent_executor stdin))
  `prefix_of` map (fun query => {[ "input" := query ]}) (before_quit stdin).
Proof. apply loop_invocations. Qed.

(** X3.  main prints an answer only for an invocation it has made, and at
    most one invocation stays without a printed answer (the one that ended
    the loop). *)
Theorem answers_match_invocations (agent_executor : Obj) (stdin : list string) :
  (length (answers (trace (main agent_executor stdin)))
   <= length (invocations (trace (main agent_executor stdin)))
   <= S (length (answers (trace (main agent_executor stdin)))))%nat.
Proof. apply loop_answers. Qed.

(** X4.  main returns normally only when a line quits: the input is then
    the lines before the first quitting line, that line, and the lines
    left unread. *)
Theorem normal_end_needs_quit (agent_executor : Obj) (stdin : list string) :
  result (main agent_executor stdin) = Returned tt ->
  exists query : string,
    equal_ignoring_case query "quit" = true /\
    stdin = (before_quit stdin ++ query :: unread (main agent_executor stdin))%list.
Proof.
  intros Hret. destruct (loop_returns stdin agent_executor Hret) as (query & Hq & Hin).
  exists query. split; [| exact Hin].
  rewrite <- lower_is_quit. exact Hq.
Qed.

(** X5.  The process ends with exit status 0 only when startup gave an
    executor and some line of standard input is "quit" in some case. *)
Theorem exit_zero_needs_quit (argv : list string) (dotenv environ : gmap string string)
    (stdin : list string) :
  exit_code (script argv dotenv environ stdin) = 0%Z ->
  exists (agent_executor : Obj) (query : string),
    startup (load_dotenv dotenv environ) = Returned agent_executor /\
    In query stdin /\ equal_ignoring_case query "quit" = true.
Proof.
  unfold script.
  destruct (startup (load_dotenv dotenv environ)) as [agent_executor | e]; [| discriminate].
  cbn [exit_code]. intros Hexit.
  destruct (result (main agent_executor stdin)) as [[] |] eqn:Hret; [| discriminate].
  destruct (loop_returns stdin agent_executor Hret) as (query & Hq & Hin).
  exists agent_executor, query. split; [reflexivity |]. split.
  - rewrite Hin. apply in_or_app. right. now left.
  - rewrite <- lower_is_quit. exact Hq.
Qed.

(** X6.  When the response of an invocation holds no "output", the
    subscript raises KeyError: the loop ends with it, prints no answer for
    that query and leaves the following lines unread. *)
Theorem missing_output_ends_loop (agent_executor ex : Obj) (query : string)
    (response : gmap string string) (rest : list string) :
  quits query = false ->
  ainvoke agent_executor {[ "input" := query ]} = (Returned response, ex) ->
  response !! "output" = None ->
  let r := main agent_executor (query :: rest) in
  result r = Raised (Exc KeyError "'output'") /\
  answers (trace r) = [] /\
  unread r = rest /\
  executor r = ex.
Proof.
  intros Hquit Hcall Hout. cbv zeta. unfold main.
  rewrite (loop_missing_output _ _ _ _ _ Hquit Hcall Hout).
  repeat split.
Qed.

End Sessions.

Section Answered.
Context {Obj : Type} `{Framework Obj}.

(** An executor that answers: every invocation returns a response that
    holds an output. *)
Hypothesis answered : forall (agent_executor : Obj) (input : gmap string string),
  exists (response : gmap string string) (ex : Obj) (output : string),
    ainvoke agent_executor input = (Returned response, ex) /\
    response !! "output" = Some output.

Lemma loop_answered_turn (agent_executor : Obj) (query : string) (rest : list string) :
  quits query = false ->
  exists (ex : Obj) (output : string),
    (ainvoke agent_executor {[ "input" := query ]}).2 = ex /\
    loop agent_executor (query :: rest) =
    after [Stdout ask; Stdin query; AInvoke {[ "input" := query ]};
           print [label; output]]
          (loop ex rest).
Proof.
  unfold quits. intros Hquit.
  destruct (answered agent_executor {[ "input" := query ]})
    as (response & ex & output & Hcall & Hout).
  exists ex, output. rewrite loop_turn, Hquit, Hcall.
  unfold getitem. rewrite Hout. split; reflexivity.
Qed.

Lemma loop_answered (served : list string) : forall (agent_executor : Obj)
    (query : string) (rest : list string),
  Forall (fun line => quits line = false) served ->
  quits query = true ->
  let r := loop agent_executor (served ++ query :: rest)%list in
  result r = Returned tt /\
  unread r = rest /\
  invocations (trace r) = map (fun line => {[ "input" := line ]}) served /\
  length (answers (trace r)) = length served /\
  executor r =
    foldl (fun ex line => (ainvoke ex {[ "input" := line ]}).2) agent_executor served.
Proof.
  induction served as [| line served IH]; intros agent_executor query rest Hserved Hquit.
  - cbv zeta. cbn [app]. rewrite loop_turn. unfold quits in Hquit. rewrite Hquit.
    repeat split.
  - apply Forall_cons in Hserved as [Hline Hserved].
    destruct (loop_answered_turn agent_executor line (served ++ query :: rest)%list Hline)
      as (ex & output & Hex & Hturn).
    destruct (IH ex query rest Hserved Hquit) as (Hres & Hun & Hinv & Hans & Hexec).
    cbv zeta. cbn [app foldl]. rewrite Hturn, Hex.
    cbn [result unread executor trace after].
    rewrite invocations_app, answers_app, answers_of_turn.
    split; [exact Hres |]. split; [exact Hun |]. split; [| split].
    + rewrite Hinv. reflexivity.
    + cbn [app length]. now rewrite Hans.
    + exact Hexec.
Qed.

Lemma loop_unanswered_end (stdin : list string) : forall agent_executor : Obj,
  Forall (fun line => quits line = false) stdin ->
  let r := loop agent_executor stdin in
  result r = Raised (Exc EOFError "EOF when reading a line") /\
  unread r = [] /\
  invocations (trace r) = map (fun line => {[ "input" := line ]}) stdin /\
  length (answers (trace r)) = length stdin.
Proof.
  induction stdin as [| line stdin IH]; intros agent_executor Hall.
  - repeat split.
  - apply Forall_cons in Hall as [Hline Hall].
    destruct (loop_answered_turn agent_executor line stdin Hline)
      as (ex & output & _ & Hturn).
    destruct (IH ex Hall) as (Hres & Hun & Hinv & Hans).
    cbv zeta. rewrite Hturn. cbn [result unread trace after].
    rewrite invocations_app, answers_app, answers_of_turn.
    split; [exact Hres |]. split; [exact Hun |]. split.
    + rewrite Hinv. reflexivity.
    + cbn [app length]. now rewrite Hans.
Qed.

(** X7.  With an executor that answers every invocation, a session whose
    first quitting line comes after the lines [served] ends normally: main
    has invoked the executor once for each of those lines, in order, has
    printed one answer for each, leaves the lines after the quitting line
    unread, and leaves the executor that results from threading it through
    the invocations. *)
Theorem answered_session (agent_executor : Obj) (served : list string)
    (query : string) (rest : list string) :
  Forall (fun line => quits line = false) served ->
  quits query = true ->
  let r := main agent_executor (served ++ query :: rest)%list in
  result r = Returned tt /\
  unread r = rest /\
  invocations (trace r) = map (fun line => {[ "input" := line ]}) served /\
  length (answers (trace r)) = length served /\
  executor r =
    foldl (fun ex line => (ainvoke ex {[ "input" := line ]}).2) agent_executor served.
Proof. intros Hserved Hquit. exact (loop_answered served agent_executor query rest Hserved Hquit). Qed.

(** X8.  With an executor that answers every invocation and an input in
    which no line quits, main invokes the executor for every line, prints
    an answer for each, and then ends with EOFError from the read at the
    end of the input; for the empty input that is all it does. *)
Theorem input_without_quit_ends_in_eof (agent_executor : Obj) (stdin : list string) :
  Forall (fun line => quits line = false) stdin ->
  let r := main agent_executor stdin in
  result r = Raised (Exc EOFError "EOF when reading a line") /\
  unread r = [] /\
  invocations (trace r) = map (fun line => {[ "input" := line ]}) stdin /\
  length (answers (trace r)) = length stdin.
Proof. intros Hall. exact (loop_unanswered_end stdin agent_executor Hall). Qed.

End Answered.

Lemma answering_answers (agent_executor : nat) (input : gmap string string) :
  exists (response : gmap string string) (ex : nat) (output : string),
    @ainvoke nat answering agent_executor input = (Returned response, ex) /\
    response !! "output" = Some output.
Proof.
  exists (<[ "output" := "It is noon." ]> input), (S agent_executor), "It is noon.".
  split; [reflexivity | apply lookup_insert_eq].
Qed.

Lemma normal_end_needs_quit_witness :
  exists query : string,
    equal_ignoring_case query "quit" = true /\
    ["What time is it?"; "QUIT"; "later"] =
    (before_quit ["What time is it?"; "QUIT"; "later"]
     ++ query :: unread (@main nat answering 0%nat ["What time is it?"; "QUIT"; "later"]))%list.
Proof.
  apply (@normal_end_needs_quit nat answering 0%nat ["What time is it?"; "QUIT"; "later"]).
  reflexivity.
Defined.

Lemma exit_zero_needs_quit_witness :
  exists (agent_executor : nat) (query : string),
    @startup nat answering (load_dotenv ∅ full_environ) = Returned agent_executor /\
    In query ["What time is it?"; "Quit"] /\ equal_ignoring_case query "quit" = true.
Proof.
  apply (@exit_zero_needs_quit nat answering [] ∅ full_environ ["What time is it?"; "Quit"]).
  reflexivity.
Defined.

Lemma missing_output_ends_loop_witness :
  let r := @main nat silent 0%nat ["What time is it?"; "quit"] in
  result r = Raised (Exc KeyError "'output'") /\
  answers (trace r) = [] /\
  unread r = ["quit"] /\
  executor r = 1%nat.
Proof.
  apply (@missing_output_ends_loop nat silent 0%nat 1%nat "What time is it?"
           {[ "input" := "What time is it?" ]} ["quit"]).
  - reflexivity.
  - reflexivity.
  - reflexivity.
Defined.

Lemma answered_session_witness :
  let r := @main nat answering 0%nat
             (["What time is it?"; "Who was Ada Lovelace?"] ++ "Quit" :: ["later"])%list in
  result r = Returned tt /\
  unread r = ["later"] /\
  invocations (trace r)
  = map (fun line => {[ "input" := line ]}) ["What time is it?"; "Who was Ada Lovelace?"] /\
  length (answers (trace r)) = 2%nat /\
  executor r =
    foldl (fun ex line => (@ainvoke nat answering ex {[ "input" := line ]}).2) 0%nat
          ["What time is it?"; "Who was Ada Lovelace?"].
Proof.
  apply (@answered_session nat answering answering_answers 0%nat
           ["What time is it?"; "Who was Ada Lovelace?"] "Quit" ["later"]).
  - repeat constructor.
  - reflexivity.
Defined.

Lemma input_without_quit_ends_in_eof_witness :
  let r := @main nat answering 0%nat ["What time is it?"; "quit now"] in
  result r = Raised (Exc EOFError "EOF when reading a line") /\
  unread r = [] /\
  invocations (trace r)
  = map (fun line => {[ "input" := line ]}) ["What time is it?"; "quit now"] /\
  length (answers (trace r)) = 2%nat.
Proof.
  apply (@input_without_quit_ends_in_eof nat answering answering_answers 0%nat
           ["What time is it?"; "quit now"]).
  repeat constructor.
Defined.

(** * Further properties of the tools and of the settings *)

Lemma lower_cons_inv (s : string) (d : ascii) (t : string) :
  lower s = String d t ->
  exists (c : ascii) (s' : string), s = String c s' /\ lower_char c = d /\ lower s' = t.
Proof.
  destruct s as [| c s']; cbn [lower]; [discriminate |].
  intros [= Hc Ht]. now exists c, s'.
Qed.

Lemma lower_char_inv (c d : ascii) :
  In d ["q"; "u"; "i"; "t"]%char ->
  lower_char c = d -> c = d \/ c = upper_char d.
Proof.
  intros Hd. repeat (destruct Hd as [<- | Hd]; [| try contradiction]);
    destruct c as [[] [] [] [] [] [] [] []]; intros Hc;
    first [discriminate Hc | left; reflexivity | right; reflexivity].
Qed.

(** X10.  A line ends the loop exactly when it is one of the sixteen ways
    of writing the four letters of quit in small and capital letters; a
    line with anything more, such as a space before or after, does not. *)
Theorem quit_spellings (query : string) :
  quits query = true <-> In query (spellings "quit").
Proof.
  unfold quits. rewrite String.eqb_eq. split.
  - intros Hlow.
    apply lower_cons_inv in Hlow as (c1 & s1 & -> & H1 & Hlow).
    apply lower_cons_inv in Hlow as (c2 & s2 & -> & H2 & Hlow).
    apply lower_cons_inv in Hlow as (c3 & s3 & -> & H3 & Hlow).
    apply lower_cons_inv in Hlow as (c4 & s4 & -> & H4 & Hlow).
    destruct s4; [| discriminate Hlow].
    apply lower_char_inv in H1 as [-> | ->]; [| | cbn; tauto];
      (apply lower_char_inv in H2 as [-> | ->]; [| | cbn; tauto]);
      (apply lower_char_inv in H3 as [-> | ->]; [| | cbn; tauto]);
      (apply lower_char_inv in H4 as [-> | ->]; [| | cbn; tauto]);
      vm_compute; repeat first [left; reflexivity | right].
  - intros Hin. vm_compute in Hin.
    repeat (destruct Hin as [<- | Hin]; [reflexivity |]). contradiction.
Qed.

Lemma quit_spellings_witness :
  In "QuIt" (spellings "quit") /\ quits "quIT" = true.
Proof.
  split.
  - apply (proj1 (quit_spellings "QuIt")). reflexivity.
  - apply (proj2 (quit_spellings "quIT")). vm_compute. tauto.
Defined.

(** X11.  Two calls of the clock tool return the same text exactly when
    the clock readings agree in the seven fields that are printed, from
    the year to the microsecond, whatever the calls were given and
    whatever the fold attribute was: the text tells the date and time of
    day on the local clock, and it does not tell the two passes through a
    repeated hour apart. *)
Theorem clock_text_determines_fields (w w' : World)
    (args args' : list string) (kwargs kwargs' : list (string * string)) :
  valid_datetime (datetime_now w) ->
  valid_datetime (datetime_now w') ->
  get_current_datetime w args kwargs = get_current_datetime w' args' kwargs' <->
  datetime_now w = datetime_now w'.
Proof.
  intros Hv Hv'. split.
  - intros Hsame.
    assert (Hparse : parse_iso8601 (isoformat (datetime_now w))
                     = parse_iso8601 (isoformat (datetime_now w'))).
    { unfold get_current_datetime in Hsame. congruence. }
    rewrite !parse_isoformat in Hparse by assumption. congruence.
  - intros Hfields. unfold get_current_datetime. now rewrite Hfields.
Qed.

Lemma clock_text_determines_fields_witness :
  datetime_fold sample_world <> datetime_fold interrupted_world /\
  get_current_datetime sample_world ["now"] []
  = get_current_datetime interrupted_world [] [("tz", "UTC")].
Proof.
  split; [discriminate |].
  apply (clock_text_determines_fields sample_world interrupted_world
           ["now"] [] [] [("tz", "UTC")]).
  - unfold valid_datetime. cbn. lia.
  - unfold valid_datetime. cbn. lia.
  - reflexivity.
Defined.

Lemma length_append (a b : string) :
  String.length (a ++ b) = (String.length a + String.length b)%nat.
Proof.
  induction a as [| c a IH]; [reflexivity |].
  rewrite append_cons. cbn [String.length]. now rewrite IH.
Qed.

Lemma length_digits (w : nat) : forall n : N, String.length (digits w n) = w.
Proof.
  induction w as [| w IH]; intros n; [reflexivity |].
  cbn [digits]. rewrite length_append, IH. cbn [String.length]. lia.
Qed.

(** X12.  The text of the clock tool has 19 characters when the clock
    reading falls on a whole second (the fraction is left out) and 26
    characters otherwise. *)
Theorem clock_text_length (w : World) (args : list string) (kwargs : list (string * string)) :
  exists text : string,
    get_current_datetime w args kwargs = Returned text /\
    String.length text
    = if (microsecond (datetime_now w) =? 0)%N then 19%nat else 26%nat.
Proof.
  exists (isoformat (datetime_now w)). split; [reflexivity |].
  unfold isoformat. rewrite !length_append, !length_digits.
  destruct (microsecond (datetime_now w) =? 0)%N.
  - reflexivity.
  - rewrite length_append, length_digits. reflexivity.
Qed.

Example sixteen_spellings :
  length (spellings "quit") = 16%nat /\ NoDup (spellings "quit").
Proof.
  split; [reflexivity |].
  apply NoDup_ListNoDup. vm_compute.
  repeat constructor; cbn; intuition discriminate.
Qed.

Lemma bind_returned {A B : Type} (m : outcome A) (f : A -> outcome B) (b : B) :
  m ≫= f = Returned b ->
  exists a : A, m = Returned a /\ f a = Returned b.
Proof.
  destruct m as [a | e]; cbn [mbind outcome_bind]; [| discriminate].
  intros Hf. now exists a.
Qed.

Section Wiring.
Context {Obj : Type} `{Framework Obj}.

(** X14.  Startup gives an executor only when each of the five calls into
    the framework returns, and the objects are wired as the script writes
    them: the LLM client built from the environment goes to both the memory
    and the agent, the downloaded prompt goes to the agent, and the executor
    is built from that agent and that memory, with the tool list the agent
    got. *)
Theorem startup_wires_objects (environ : gmap string string) (agent_executor : Obj) :
  startup environ = Returned agent_executor ->
  exists prompt llm memory agent : Obj,
    hub_pull "hwchase17/react" = Returned prompt /\
    AzureChatOpenAI (llm_kwargs environ) = Returned llm /\
    ConversationSummaryBufferMemory (memory_kwargs llm) = Returned memory /\
    memory_kwargs llm !! "llm" = Some (VObj llm) /\
    create_react_agent (agent_kwargs llm prompt) = Returned agent /\
    agent_kwargs llm prompt !! "llm" = Some (VObj llm) /\
    agent_kwargs llm prompt !! "prompt" = Some (VObj prompt) /\
    AgentExecutor_from_agent_and_tools (executor_kwargs agent memory)
    = Returned agent_executor /\
    executor_kwargs agent memory !! "agent" = Some (VObj agent) /\
    executor_kwargs agent memory !! "memory" = Some (VObj memory) /\
    executor_kwargs agent memory !! "tools" = agent_kwargs llm prompt !! "tools".
Proof.
  unfold startup. intros Hstart.
  apply bind_returned in Hstart as (prompt & Hprompt & Hstart).
  apply bind_returned in Hstart as (llm & Hllm & Hstart).
  apply bind_returned in Hstart as (memory & Hmemory & Hstart).
  apply bind_returned in Hstart as (agent & Hagent & Hstart).
  exists prompt, llm, memory, agent. repeat split; assumption.
Qed.

End Wiring.

Lemma startup_wires_objects_witness :
  exists prompt llm memory agent : nat,
    @hub_pull nat answering "hwchase17/react" = Returned prompt /\
    @AzureChatOpenAI nat answering (llm_kwargs full_environ) = Returned llm /\
    @ConversationSummaryBufferMemory nat answering (memory_kwargs llm) = Returned memory /\
    memory_kwargs llm !! "llm" = Some (VObj llm) /\
    @create_react_agent nat answering (agent_kwargs llm prompt) = Returned agent /\
    agent_kwargs llm prompt !! "llm" = Some (VObj llm) /\
    agent_kwargs llm prompt !! "prompt" = Some (VObj prompt) /\
    @AgentExecutor_from_agent_and_tools nat answering (executor_kwargs agent memory)
    = Returned 0%nat /\
    executor_kwargs agent memory !! "agent" = Some (VObj agent) /\
    executor_kwargs agent memory !! "memory" = Some (VObj memory) /\
    executor_kwargs agent memory !! "tools" = agent_kwargs llm prompt !! "tools".
Proof.
  apply (@startup_wires_objects nat answering full_environ 0%nat).
  reflexivity.
Defined.
